(** * Cosmic-LifeMapper: [server/atmosphere.py]

    A shallow embedding of the atmosphere script: the synthetic trainer, the
    console input collector, the normalisation of the model's raw output and
    the report generator, followed by the properties its specification
    states about them.

    The script's numbers are NumPy [float64] values.  The code is embedded
    once, over an interface of the arithmetic it uses, and read at two
    instances: [xq], IEEE special values around exact rational arithmetic
    (where the algebraic properties are stated), and Rocq's primitive
    binary64 floats (where concrete runs are evaluated with their rounding). *)

From Stdlib Require Import ZArith QArith Qabs Qround List String Ascii.
From Stdlib Require Import DecimalString Floats Lia Lqa.
From stdpp Require Import base option gmap strings.
Import ListNotations.

Local Open Scope string_scope.
Local Open Scope Q_scope.

(** ** The arithmetic the script uses *)

Class Number (num : Type) := {
  of_int : Z -> num;                (* an [int] literal promoted to float64 *)
  add : num -> num -> num;
  mul : num -> num -> num;
  true_divide : num -> num -> num;  (* [/]; never raises on arrays *)
  gt : num -> num -> bool;          (* [>] *)
  format_2f : num -> string         (* the [:.2f] format specification *)
}.

(** *** Formatting with two decimals

    [:.2f] rounds the exact value of the number to the nearest multiple of
    1/100, ties to even, and keeps the sign of the number. *)

Definition round_half_even (q : Q) : Z :=
  let n := Qnum q in
  let d := Zpos (Qden q) in
  let f := (n / d)%Z in
  match (2 * (n mod d) ?= d)%Z with
  | Lt => f
  | Gt => (f + 1)%Z
  | Eq => if Z.even f then f else (f + 1)%Z
  end.

Definition digits (n : Z) : string :=
  NilZero.string_of_uint (N.to_uint (Z.to_N n)).

Definition two_digits (n : Z) : string :=
  if (n <? 10)%Z then "0" ++ digits n else digits n.

(** [negative] is the sign, [magnitude] the absolute value. *)
Definition format_fixed2 (negative : bool) (magnitude : Q) : string :=
  let hundredths := round_half_even (magnitude * 100) in
  (if negative then "-" else "")
    ++ digits (hundredths / 100) ++ "." ++ two_digits (hundredths mod 100).

(** *** Exact instance: rationals with the IEEE special values *)

Inductive xq : Type :=
| Finite (q : Q)
| PosInf
| NegInf
| NaN.

Definition inf_of_sign (negative : bool) : xq :=
  if negative then NegInf else PosInf.

Definition Qneg (q : Q) : bool :=
  match q ?= 0 with Lt => true | _ => false end.

Definition Qzero (q : Q) : bool :=
  match q ?= 0 with Eq => true | _ => false end.

Definition xq_add (x y : xq) : xq :=
  match x, y with
  | NaN, _ | _, NaN => NaN
  | PosInf, NegInf | NegInf, PosInf => NaN
  | PosInf, _ | _, PosInf => PosInf
  | NegInf, _ | _, NegInf => NegInf
  | Finite a, Finite b => Finite (a + b)
  end.

Definition xq_mul_inf (negative : bool) (y : xq) : xq :=
  match y with
  | NaN => NaN
  | PosInf => inf_of_sign negative
  | NegInf => inf_of_sign (negb negative)
  | Finite b =>
      if Qzero b then NaN else inf_of_sign (xorb negative (Qneg b))
  end.

Definition xq_mul (x y : xq) : xq :=
  match x, y with
  | Finite a, Finite b => Finite (a * b)
  | PosInf, _ => xq_mul_inf false y
  | NegInf, _ => xq_mul_inf true y
  | _, PosInf => xq_mul_inf false x
  | _, NegInf => xq_mul_inf true x
  | NaN, _ | _, NaN => NaN
  end.

(** A zero divisor is read as +0, the value a sum that cancels rounds to. *)
Definition xq_div (x y : xq) : xq :=
  match x, y with
  | NaN, _ | _, NaN => NaN
  | Finite a, Finite b =>
      if Qzero b
      then match a ?= 0 with Eq => NaN | Gt => PosInf | Lt => NegInf end
      else Finite (a / b)
  | Finite _, _ => Finite 0
  | PosInf, Finite b => inf_of_sign (Qneg b)
  | NegInf, Finite b => inf_of_sign (negb (Qneg b))
  | _, _ => NaN
  end.

Definition xq_gt (x y : xq) : bool :=
  match x, y with
  | NaN, _ | _, NaN => false
  | Finite a, Finite b => match b ?= a with Lt => true | _ => false end
  | PosInf, PosInf => false
  | PosInf, _ => true
  | _, NegInf => match x with NegInf => false | _ => true end
  | _, _ => false
  end.

Definition xq_format_2f (x : xq) : string :=
  match x with
  | Finite q => format_fixed2 (Qneg q) (Qabs q)
  | PosInf => "inf"
  | NegInf => "-inf"
  | NaN => "nan"
  end.

#[export] Instance xq_number : Number xq := {|
  of_int z := Finite (inject_Z z);
  add := xq_add;
  mul := xq_mul;
  true_divide := xq_div;
  gt := xq_gt;
  format_2f := xq_format_2f
|}.

Definition is_finite (x : xq) : bool :=
  match x with Finite _ => true | _ => false end.

(** Equality of values: [==] on the rationals. *)
Definition xq_eq (x y : xq) : Prop :=
  match x, y with
  | Finite a, Finite b => a == b
  | PosInf, PosInf | NegInf, NegInf | NaN, NaN => True
  | _, _ => False
  end.

(** *** binary64 instance *)

Definition float_of_int (z : Z) : float :=
  if (z <? 0)%Z
  then PrimFloat.opp (PrimFloat.of_uint63 (Uint63.of_Z (- z)))
  else PrimFloat.of_uint63 (Uint63.of_Z z).

Definition float_format_2f (x : float) : string :=
  match Prim2SF x with
  | S754_zero s => format_fixed2 s 0
  | S754_infinity s => if s then "-inf" else "inf"
  | S754_nan => "nan"
  | S754_finite s m e =>
      format_fixed2 s
        (if (e <? 0)%Z
         then Qmake (Zpos m) (Pos.shiftl 1 (Z.to_N (- e)))
         else inject_Z (Z.shiftl (Zpos m) e))
  end.

#[export] Instance float_number : Number float := {|
  of_int := float_of_int;
  add := PrimFloat.add;
  mul := PrimFloat.mul;
  true_divide := PrimFloat.div;
  gt x y := PrimFloat.ltb y x;
  format_2f := float_format_2f
|}.

(** ** Normalisation (line 78) *)

Section Normalizer.
Context {num : Type} `{Number num}.

(** [np.sum]: the elements added up from zero.  NumPy adds the elements
    of a short array in another order; over exact arithmetic the order
    is immaterial, and the binary64 runs below are on vectors whose
    partial sums are all exact. *)
Definition np_sum (a : list num) : num := fold_left add a (of_int 0).

(** [100 * raw_output / np.sum(raw_output)] *)
Definition normalize (raw_output : list num) : list num :=
  let total := np_sum raw_output in
  map (fun x => true_divide (mul (of_int 100) x) total) raw_output.

End Normalizer.

(** ** The libraries the script calls

    [float], NumPy's samplers, scikit-learn's forest and its prediction are
    not code of the repository; they are an interface. *)

Class Library (num : Type) := {
  model : Type;   (* a fitted [RandomForestRegressor] *)
  rng : Type;     (* the state of [np.random]'s global generator *)
  (* the builtin [float] on a [str]; [None] is [ValueError] *)
  float_of_string : string -> option num;
  (* [np.random.rand(rows, cols)] *)
  random_rand : rng -> nat -> nat -> list (list num) * rng;
  (* [np.random.dirichlet(alpha, size=size)] *)
  random_dirichlet : rng -> list num -> nat -> list (list num) * rng;
  (* [RandomForestRegressor(n_estimators, random_state).fit(X, Y)] *)
  forest_fit : nat -> Z -> list (list num) -> list (list num) -> model;
  (* [model.predict(df)], one output row per row of the frame *)
  forest_predict : model -> list (list (string * num)) -> list (list num)
}.

(** ** Globals *)

Definition GASES : list string :=
  ["CO2"; "N2"; "O2"; "H2O"; "CH4"; "H2"; "He"; "SO2"; "O3"; "NH3"].

Definition ESSENTIAL_FEATURES : list string :=
  ["pl_dens"; "pl_orbper"; "pl_eqtstr"; "st_rad"; "st_lum";
   "pl_bmassj"; "pl_ratror"; "st_met"].

Definition newline : string := String "010"%char EmptyString.

(** What the console receives: [print] writes a line, [input] a prompt. *)
Inductive event : Type :=
| Line (text : string)
| Prompt (text : string).

Inductive exn : Type :=
| ValueError
| EOFError
| FileNotFoundError
| IndexError.

Inductive outcome (A : Type) : Type :=
| Returned (a : A)
| Raised (e : exn).
Arguments Returned {A} a.
Arguments Raised {A} e.

Section Script.
Context {num : Type} {N : Number num} {L : Library num}.

(** The process and its surroundings. *)
Record world : Type := World {
  stdin : list string;            (* the lines still to be typed *)
  stdout : list event;            (* what was written, oldest first *)
  files : gmap string model;      (* the working directory *)
  np_random : rng
}.

(** A statement: it changes the world and returns or raises. *)
Definition Py (A : Type) : Type := world -> outcome A * world.

Definition ret {A} (a : A) : Py A := fun w => (Returned a, w).

Definition raise {A} (e : exn) : Py A := fun w => (Raised e, w).

Definition bind {A B} (c : Py A) (k : A -> Py B) : Py B :=
  fun w =>
    match c w with
    | (Returned a, w') => k a w'
    | (Raised e, w') => (Raised e, w')
    end.

Local Notation "'let*' x ':=' c 'in' k" := (bind c (fun x => k))
  (at level 10, x name, c at level 100, k at level 200, only parsing).
Local Notation "c ';;;' k" := (bind c (fun _ => k))
  (at level 100, k at level 200, right associativity, only parsing).

(** The world after [evs] were written to the console. *)
Definition wrote (evs : list event) (w : world) : world :=
  {| stdin := stdin w; stdout := stdout w ++ evs;
     files := files w; np_random := np_random w |}.

(** The world once only [rest] is left to be read from the console. *)
Definition left_to_read (rest : list string) (w : world) : world :=
  {| stdin := rest; stdout := stdout w;
     files := files w; np_random := np_random w |}.

Definition write (e : event) : Py unit :=
  fun w => (Returned tt, wrote [e] w).

Definition print (text : string) : Py unit := write (Line text).

(** [input(prompt)]: the prompt is written, then a line is read. *)
Definition input (prompt : string) : Py string :=
  write (Prompt prompt) ;;;
  fun w =>
    match stdin w with
    | [] => (Raised EOFError, w)
    | l :: rest => (Returned l, left_to_read rest w)
    end.

(** [float(s)] *)
Definition float_ (s : string) : Py num :=
  match float_of_string s with
  | Some x => ret x
  | None => raise ValueError
  end.

Definition get_input : Py (list (string * num)) :=
  print "Enter Essential Exoplanet Parameters:" ;;;
  let* s1 := input "Planet Density (g/cm³): " in
  let* pl_dens := float_ s1 in
  let* s2 := input "Orbital Period (days): " in
  let* pl_orbper := float_ s2 in
  let* s3 := input "Equilibrium Temperature (K): " in
  let* pl_eqtstr := float_ s3 in
  let* s4 := input "Stellar Radius (Solar Radii): " in
  let* st_rad := float_ s4 in
  let* s5 := input "Stellar Luminosity (Solar Units): " in
  let* st_lum := float_ s5 in
  let* s6 := input "Planet Mass (Jupiter Masses): " in
  let* pl_bmassj := float_ s6 in
  let* s7 := input "Planet-to-Star Radius Ratio: " in
  let* pl_ratror := float_ s7 in
  let* s8 := input "Stellar Metallicity [Fe/H]: " in
  let* st_met := float_ s8 in
  ret [("pl_dens", pl_dens); ("pl_orbper", pl_orbper);
       ("pl_eqtstr", pl_eqtstr); ("st_rad", st_rad); ("st_lum", st_lum);
       ("pl_bmassj", pl_bmassj); ("pl_ratror", pl_ratror);
       ("st_met", st_met)].

(** *** The trainer *)

Definition model_path : string := "atmo_percent_predictor.pkl".

(** [joblib.dump(model, path)] *)
Definition joblib_dump (m : model) (path : string) : Py unit :=
  fun w =>
    (Returned tt,
     {| stdin := stdin w; stdout := stdout w;
        files := <[path := m]> (files w); np_random := np_random w |}).

(** [joblib.load(path)] *)
Definition joblib_load (path : string) : Py model :=
  fun w =>
    match files w !! path with
    | Some m => (Returned m, w)
    | None => (Raised FileNotFoundError, w)
    end.

(** A draw from [np.random]: the generator's state moves on. *)
Definition draw {A} (sample : rng -> A * rng) : Py A :=
  fun w =>
    let (a, g) := sample (np_random w) in
    (Returned a,
     {| stdin := stdin w; stdout := stdout w;
        files := files w; np_random := g |}).

(** [np.ones(n)] *)
Definition np_ones (n : nat) : list num := repeat (of_int 1) n.

(** [matrix * c] *)
Definition scale (matrix : list (list num)) (c : num) : list (list num) :=
  map (map (fun y => mul y c)) matrix.

Definition train_dummy_model : Py unit :=
  let* X :=
    draw (fun g => random_rand g 500 (List.length ESSENTIAL_FEATURES)) in
  let* D :=
    draw (fun g => random_dirichlet g (np_ones (List.length GASES)) 500) in
  let Y := scale D (of_int 100) in
  let model := forest_fit 100 42 X Y in
  joblib_dump model model_path ;;;
  print "Dummy atmospheric composition model trained and saved.".

(** *** The report *)

(** [{gas:>3}] *)
Definition rjust (width : nat) (s : string) : string :=
  String.concat "" (repeat " " (width - String.length s)) ++ s.

(** Lines 45 to 52. *)
Definition descriptor_of (percent : num) : string :=
  if gt percent (of_int 60) then " — Dominant gas"
  else if gt percent (of_int 20) then " — Major component"
  else if gt percent (of_int 5) then " — Minor component"
  else " — Trace presence".

(** The body of the loop, for one pair of the [zip]. *)
Definition report_row (gas : string) (percent : num) : Py unit :=
  let descriptor := descriptor_of percent in
  print (rjust 3 gas ++ ": " ++ format_2f percent ++ "%" ++ descriptor).

Fixpoint for_each {A} (body : A -> Py unit) (l : list A) : Py unit :=
  match l with
  | [] => ret tt
  | x :: rest => body x ;;; for_each body rest
  end.

Definition rule : string := "====================================".

Definition generate_report (percentages : list num) : Py unit :=
  print (newline ++ "Atmospheric Composition Report") ;;;
  print rule ;;;
  for_each (fun gp => report_row (fst gp) (snd gp))
           (combine GASES percentages) ;;;
  print (rule ++ newline) ;;;
  print " Referenced Research Papers:".

(** *** The statements of the module, after the definitions *)

(** The four citations, in the order of their [print] statements. *)
Definition CITATIONS : list string :=
  ["Armstrong et al., 2020 - \“Atmospheric Retention Limits of Exoplanets Around M-Dwarfs\”";
   "Seager & Deming, 2019 – \“Exoplanet Atmospheres and Photochemical Modeling\”";
   "Lopez & Fortney, 2013 – \“The Role of Mass and Stellar Flux in Shaping Exoplanet Atmospheres\”";
   "Madhusudhan et al., 2014 – \“A Survey of Chemical Compositions of Transiting Exoplanets\”"].

(** Lines 57 to 63: four [print] statements at the top level. *)
Definition print_citations : Py unit :=
  print "Armstrong et al., 2020 - \“Atmospheric Retention Limits of Exoplanets Around M-Dwarfs\”" ;;;
  print "Seager & Deming, 2019 – \“Exoplanet Atmospheres and Photochemical Modeling\”" ;;;
  print "Lopez & Fortney, 2013 – \“The Role of Mass and Stellar Flux in Shaping Exoplanet Atmospheres\”" ;;;
  print "Madhusudhan et al., 2014 – \“A Survey of Chemical Compositions of Transiting Exoplanets\”".

(** [model.predict(df)[0]] *)
Definition first_row (rows : list (list num)) : Py (list num) :=
  match rows with
  | r :: _ => ret r
  | [] => raise IndexError
  end.

(** Lines 71 to 79. *)
Definition predict_and_report : Py unit :=
  let* user_input := get_input in
  let df := [user_input] in
  let* model := joblib_load model_path in
  let* raw_output := first_row (forest_predict model df) in
  let normalized := normalize raw_output in
  generate_report normalized.

(** The [__main__] block. *)
Definition main : Py unit :=
  train_dummy_model ;;;
  predict_and_report.

(** Running the file as a script. *)
Definition script : Py unit :=
  print_citations ;;;
  main.

End Script.

(** ** A small instance of the libraries

    Enough of [float], the samplers and the forest to run the script on
    concrete consoles: decimal numerals are parsed, the samplers return
    constant tables of the right shape, and the forest answers with the
    first row of labels it was fitted on. *)

Definition digit_value (c : ascii) : option Z :=
  let n := Z.of_nat (nat_of_ascii c) in
  if ((48 <=? n) && (n <=? 57))%Z then Some (n - 48)%Z else None.

Fixpoint parse_digits (acc : Z) (s : string) : option Z :=
  match s with
  | EmptyString => Some acc
  | String c rest =>
      match digit_value c with
      | Some d => parse_digits (10 * acc + d)%Z rest
      | None => None
      end
  end.

Definition parse_numeral (s : string) : option Z :=
  match s with
  | EmptyString => None
  | _ => parse_digits 0 s
  end.

Definition sample_library (num : Type) {N : Number num} : Library num := {|
  model := list num;
  rng := nat;
  float_of_string s := option_map of_int (parse_numeral s);
  random_rand g rows cols := (repeat (repeat (of_int 0) cols) rows, S g);
  random_dirichlet g alpha size :=
    (repeat
       (map (fun _ => true_divide (of_int 1)
                        (of_int (Z.of_nat (List.length alpha)))) alpha)
       size,
     S g);
  forest_fit _ _ _ Y := List.hd [] Y;
  forest_predict m df := map (fun _ => m) df
|}.

(** A console on which nothing was written yet. *)
Definition console {num : Type} {N : Number num} (typed : list string)
  : @world num (sample_library num) :=
  @World num (sample_library num) typed [] ∅ 0%nat.

(** The prompts of [get_input], in the order of its [input] calls. *)
Definition PROMPTS : list string :=
  ["Planet Density (g/cm³): "; "Orbital Period (days): ";
   "Equilibrium Temperature (K): "; "Stellar Radius (Solar Radii): ";
   "Stellar Luminosity (Solar Units): "; "Planet Mass (Jupiter Masses): ";
   "Planet-to-Star Radius Ratio: "; "Stellar Metallicity [Fe/H]: "].

(** The lines of the report for the pairs of the [zip]. *)
Definition report_rows {num : Type} {N : Number num}
    (percentages : list num) : list event :=
  map (fun gp =>
         Line (rjust 3 (fst gp) ++ ": " ++ format_2f (snd gp) ++ "%"
                 ++ descriptor_of (snd gp)))
      (combine GASES percentages).

(** Everything [generate_report] writes. *)
Definition report {num : Type} {N : Number num}
    (percentages : list num) : list event :=
  [Line (newline ++ "Atmospheric Composition Report"); Line rule]
    ++ report_rows percentages
    ++ [Line (rule ++ newline); Line " Referenced Research Papers:"].

(** The sum of a list of rationals, as [np_sum] computes it. *)
Definition Qsum (v : list Q) : Q := fold_left Qplus v 0.




(** The exact value of a binary64 number. *)
Definition float_value (x : float) : xq :=
  match Prim2SF x with
  | S754_zero _ => Finite 0
  | S754_infinity s => inf_of_sign s
  | S754_nan => NaN
  | S754_finite s m e =>
      let magnitude :=
        if (e <? 0)%Z
        then Qmake (Zpos m) (Pos.shiftl 1 (Z.to_N (- e)))
        else inject_Z (Z.shiftl (Zpos m) e) in
      Finite (if s then - magnitude else magnitude)
  end.

Definition xq_eqb (x y : xq) : bool :=
  match x, y with
  | Finite a, Finite b => Qeq_bool a b
  | PosInf, PosInf | NegInf, NegInf | NaN, NaN => true
  | _, _ => false
  end.

(** Operands around the special values: zero, powers of two of both signs
    (their sums, products and quotients are exact in binary64), the
    infinities and not-a-number. *)
Definition special_operands : list float :=
  [0; 1; -1; 2; -4; infinity; neg_infinity; nan]%float.

(** [op] on binary64 and on [xq] agree on every pair of these operands. *)
Definition agree_on_special_operands
    (op_float : float -> float -> float) (op_xq : xq -> xq -> xq) : bool :=
  forallb
    (fun x =>
       forallb
         (fun y =>
            xq_eqb (float_value (op_float x y))
                   (op_xq (float_value x) (float_value y)))
         special_operands)
    special_operands.

(** The scenario of the specification. *)
Definition scenario : list Z := [70; 5; 5; 5; 5; 2; 2; 2; 1; 1]%Z.

(** The buckets of the report, from the weakest to the strongest. *)
Definition descriptor_rank (descriptor : string) : nat :=
  if String.eqb descriptor " — Dominant gas" then 3
  else if String.eqb descriptor " — Major component" then 2
  else if String.eqb descriptor " — Minor component" then 1
  else 0.


(** * Properties *)

(** ** The normaliser over exact arithmetic *)

Section NormalizerFacts.

(** The rules of [xq] for the special values are those of binary64. *)
Lemma xq_follows_binary64 :
  agree_on_special_operands PrimFloat.add xq_add = true
  /\ agree_on_special_operands PrimFloat.mul xq_mul = true
  /\ agree_on_special_operands PrimFloat.div xq_div = true
  /\ forallb
       (fun x =>
          forallb
            (fun y => Bool.eqb (PrimFloat.ltb y x)
                               (xq_gt (float_value x) (float_value y)))
            special_operands)
       special_operands
     = true.
Proof. repeat split; vm_compute; reflexivity. Qed.

Lemma fold_add_Finite (v : list Q) (a : Q) :
  fold_left add (map Finite v) (Finite a) = Finite (fold_left Qplus v a).
Proof.
  revert a. induction v as [| x v IH]; intros a; simpl; [reflexivity |].
  apply IH.
Qed.

Lemma np_sum_Finite (v : list Q) :
  np_sum (map Finite v) = Finite (Qsum v).
Proof. apply fold_add_Finite. Qed.


Lemma Qzero_true (q : Q) : q == 0 -> Qzero q = true.
Proof. intros Hq. unfold Qzero. apply Qeq_alt in Hq. now rewrite Hq. Qed.







End NormalizerFacts.

Section NormalizerClaims.











(** With a negative component the bounds are lost, the sum staying
    positive. *)
Example negative_component_leaves_range :
  normalize (map Finite [2; -1]) = [Finite (200 # 1); Finite (-100 # 1)].
Proof. reflexivity. Qed.

End NormalizerClaims.

(** ** The scenarios of the normaliser *)

Section NormalizerScenarios.

(** The rows that a vector of not-a-numbers is reported with. *)
Lemma nan_rows :
  report_rows (normalize (repeat (@of_int float _ 0) 10))
  = map (fun gas => Line (rjust 3 gas ++ ": nan% — Trace presence")) GASES.
Proof. vm_compute. reflexivity. Qed.

(** C3: on the all-zero vector the division by the zero sum is carried
    out: every component of the result is NaN, in exact arithmetic and in
    binary64, and whenever finite values sum to zero no component of the
    result is finite. *)
Theorem normalize_zero_sum_not_finite :
  normalize (repeat (@of_int xq _ 0) 10) = repeat NaN 10
  /\ normalize (repeat (@of_int float _ 0) 10) = repeat PrimFloat.nan 10
  /\ forall v : list Q,
       xq_eq (np_sum (map Finite v)) (of_int 0) ->
       Forall (fun y => is_finite y = false) (normalize (map Finite v)).
Proof.
  split; [reflexivity | split; [vm_compute; reflexivity |]].
  intros v. rewrite np_sum_Finite. simpl. intros Hs.
  unfold normalize. rewrite np_sum_Finite.
  apply List.Forall_forall. intros y Hy. rewrite map_map in Hy.
  apply in_map_iff in Hy. destruct Hy as (x & <- & _). simpl.
  rewrite (Qzero_true _ Hs). now destruct (inject_Z 100 * x ?= 0).
Qed.

Lemma normalize_zero_sum_not_finite_witness :
  Forall (fun y => is_finite y = false)
         (normalize (map Finite [3; -1; -2; 0; 0; 0; 0; 0; 0; 0])).
Proof.
  apply (proj2 (proj2 normalize_zero_sum_not_finite)). reflexivity.
Defined.

(** C4: the vector [70,5,5,5,5,2,2,2,1,1] sums to 98; each normalised
    component is 100 times the raw one divided by 98, within half a
    hundredth of 71.43, 5.10 (four times), 2.04 (three times) and 1.02
    (twice), and is printed so; CO2 is reported as dominant, N2, O2, H2O
    and CH4 as minor components, and H2, He, SO2, O3 and NH3 as traces, in
    exact arithmetic and in binary64 alike. *)
Theorem scenario_report :
  let raw : list xq := map of_int scenario in
  let lines :=
    [Line "CO2: 71.43% — Dominant gas";
     Line " N2: 5.10% — Minor component";
     Line " O2: 5.10% — Minor component";
     Line "H2O: 5.10% — Minor component";
     Line "CH4: 5.10% — Minor component";
     Line " H2: 2.04% — Trace presence";
     Line " He: 2.04% — Trace presence";
     Line "SO2: 2.04% — Trace presence";
     Line " O3: 1.02% — Trace presence";
     Line "NH3: 1.02% — Trace presence"] in
  xq_eq (np_sum raw) (of_int 98)
  /\ normalize raw = map (fun r => Finite (100 * inject_Z r / 98)) scenario
  /\ Forall2 (fun x a => exists q, x = Finite q /\ Qabs (q - a) <= 1 # 200)
             (normalize raw)
             [71.43; 5.10; 5.10; 5.10; 5.10; 2.04; 2.04; 2.04; 1.02; 1.02]
  /\ combine GASES (map descriptor_of (normalize raw))
     = [("CO2", " — Dominant gas"); ("N2", " — Minor component");
        ("O2", " — Minor component"); ("H2O", " — Minor component");
        ("CH4", " — Minor component"); ("H2", " — Trace presence");
        ("He", " — Trace presence"); ("SO2", " — Trace presence");
        ("O3", " — Trace presence"); ("NH3", " — Trace presence")]
  /\ report_rows (normalize raw) = lines
  /\ report_rows (normalize (map (@of_int float _) scenario)) = lines.
Proof.
  cbv zeta. repeat split; try (vm_compute; reflexivity).
  repeat constructor;
    (eexists; split; [vm_compute; reflexivity | vm_compute; discriminate]).
Qed.

End NormalizerScenarios.

(** ** The console *)

Section ConsoleFacts.
Context {num : Type} {N : Number num} {L : Library num}.

Lemma wrote_nil (w : world) : wrote [] w = w.
Proof. destruct w. unfold wrote. simpl. now rewrite app_nil_r. Qed.

Lemma wrote_wrote (a b : list event) (w : world) :
  wrote b (wrote a w) = wrote (a ++ b) w.
Proof. unfold wrote. simpl. now rewrite app_assoc. Qed.

Lemma left_to_read_wrote (rest : list string) (a : list event) (w : world) :
  wrote a (left_to_read rest w) = left_to_read rest (wrote a w).
Proof. reflexivity. Qed.

Lemma left_to_read_twice (r1 r2 : list string) (w : world) :
  left_to_read r2 (left_to_read r1 w) = left_to_read r2 w.
Proof. reflexivity. Qed.

Lemma bind_print {B} (text : string) (k : unit -> Py B) (w : world) :
  bind (print text) k w = k tt (wrote [Line text] w).
Proof. reflexivity. Qed.

(** A loop of [print]s writes its lines in order. *)
Lemma for_each_writes {A} (body : A -> Py unit) (line : A -> event)
      (l : list A) :
  (forall x w, body x w = (Returned tt, wrote [line x] w)) ->
  forall w, for_each body l w = (Returned tt, wrote (map line l) w).
Proof.
  intros Hbody. induction l as [| x l IH]; intros w; simpl.
  - unfold ret. now rewrite wrote_nil.
  - unfold bind. rewrite Hbody, IH. now rewrite wrote_wrote.
Qed.

Lemma generate_report_writes (percentages : list num) (w : world) :
  generate_report percentages w = (Returned tt, wrote (report percentages) w).
Proof.
  unfold generate_report. rewrite !bind_print.
  unfold bind at 1.
  rewrite (for_each_writes _
             (fun gp => Line (rjust 3 (fst gp) ++ ": " ++ format_2f (snd gp)
                                ++ "%" ++ descriptor_of (snd gp))))
    by reflexivity.
  rewrite bind_print. unfold print, write. rewrite !wrote_wrote.
  reflexivity.
Qed.

Lemma print_citations_writes (w : world) :
  print_citations w = (Returned tt, wrote (map Line CITATIONS) w).
Proof.
  unfold print_citations. rewrite !bind_print.
  unfold print, write. now rewrite !wrote_wrote.
Qed.

(** C2: the row of a gas ends in a descriptor that is fixed by the
    percentage alone, whatever the gas: "Dominant gas" above 60,
    otherwise "Major component" above 20, otherwise "Minor component"
    above 5, otherwise "Trace presence"; the comparisons are strict. *)
Theorem descriptor_by_percentage_alone
        (gas1 gas2 : string) (percent : num) (w : world) :
  exists descriptor,
    report_row gas1 percent w
    = (Returned tt,
       wrote [Line (rjust 3 gas1 ++ ": " ++ format_2f percent ++ "%"
                      ++ descriptor)] w)
    /\ report_row gas2 percent w
       = (Returned tt,
          wrote [Line (rjust 3 gas2 ++ ": " ++ format_2f percent ++ "%"
                         ++ descriptor)] w)
    /\ (gt percent (of_int 60) = true -> descriptor = " — Dominant gas")
    /\ (gt percent (of_int 60) = false -> gt percent (of_int 20) = true ->
        descriptor = " — Major component")
    /\ (gt percent (of_int 60) = false -> gt percent (of_int 20) = false ->
        gt percent (of_int 5) = true -> descriptor = " — Minor component")
    /\ (gt percent (of_int 60) = false -> gt percent (of_int 20) = false ->
        gt percent (of_int 5) = false -> descriptor = " — Trace presence")
    /\ In descriptor [" — Dominant gas"; " — Major component";
                      " — Minor component"; " — Trace presence"].
Proof.
  exists (descriptor_of percent). split; [reflexivity |].
  split; [reflexivity |]. unfold descriptor_of.
  destruct (gt percent (of_int 60)) eqn:H60;
    destruct (gt percent (of_int 20)) eqn:H20;
    destruct (gt percent (of_int 5)) eqn:H5;
    simpl; repeat split; intros; try congruence; auto 6.
Qed.

End ConsoleFacts.

(** The comparisons are strict: a percentage of exactly 60, 20 or 5 falls
    in the bucket below. *)
Example thresholds_are_strict :
  map descriptor_of [Finite 60; Finite 20; Finite 5; Finite 5.001]
  = [" — Major component"; " — Minor component"; " — Trace presence";
     " — Minor component"].
Proof. vm_compute. reflexivity. Qed.


(** ** The input collector *)

Section InputFacts.
Context {num : Type} {N : Number num} {L : Library num}.

(** One prompt answered with a numeral. *)
Lemma ask_parsed {B} (prompt s : string) (x : num) (rest : list string)
      (k : num -> Py B) (w : world) :
  stdin w = s :: rest -> float_of_string s = Some x ->
  bind (input prompt) (fun t => bind (float_ t) k) w
  = k x (left_to_read rest (wrote [Prompt prompt] w)).
Proof.
  intros Hin Hs. unfold input, write, float_, wrote, bind. simpl.
  rewrite Hin. now rewrite Hs.
Qed.

(** One prompt answered with something [float] refuses. *)
Lemma ask_refused {B} (prompt s : string) (rest : list string)
      (k : num -> Py B) (w : world) :
  stdin w = s :: rest -> float_of_string s = None ->
  bind (input prompt) (fun t => bind (float_ t) k) w
  = (Raised ValueError, left_to_read rest (wrote [Prompt prompt] w)).
Proof.
  intros Hin Hs. unfold input, write, float_, wrote, bind. simpl.
  rewrite Hin. now rewrite Hs.
Qed.

Ltac answered :=
  erewrite ask_parsed; [| simpl; first [eassumption | reflexivity] | eassumption].

Ltac refused :=
  erewrite ask_refused; [| simpl; first [eassumption | reflexivity] | eassumption].

Ltac same_console :=
  repeat first [ rewrite left_to_read_wrote
               | rewrite left_to_read_twice
               | rewrite wrote_wrote ];
  reflexivity.

Ltac parsed_values :=
  repeat match goal with
         | H : Forall2 _ (_ :: _) _ |- _ => inversion H; subst; clear H
         | H : Forall2 _ [] _ |- _ => inversion H; subst; clear H
         end.

Lemma get_input_returns (w : world) (typed rest : list string)
      (values : list num) :
  stdin w = (typed ++ rest)%list ->
  Forall2 (fun s x => float_of_string s = Some x) typed values ->
  List.length typed = 8%nat ->
  get_input w
  = (Returned (combine ESSENTIAL_FEATURES values),
     left_to_read rest
       (wrote (Line "Enter Essential Exoplanet Parameters:"
                 :: map Prompt PROMPTS) w)).
Proof.
  intros Hin Hv Hlen.
  do 9 (destruct typed as [| ? typed]; try discriminate Hlen).
  parsed_values. simpl in Hin.
  unfold get_input. rewrite bind_print. repeat answered.
  unfold ret. f_equal. same_console.
Qed.

Lemma get_input_raises (w : world) (good : list string) (bad : string)
      (rest : list string) (values : list num) :
  stdin w = (good ++ bad :: rest)%list ->
  Forall2 (fun s x => float_of_string s = Some x) good values ->
  (List.length good < 8)%nat ->
  float_of_string bad = None ->
  get_input w
  = (Raised ValueError,
     left_to_read rest
       (wrote (Line "Enter Essential Exoplanet Parameters:"
                 :: map Prompt (take (S (List.length good)) PROMPTS)) w)).
Proof.
  intros Hin Hv Hlen Hbad.
  do 8 (destruct good as [| ? good];
        [ parsed_values; simpl in Hin;
          unfold get_input; rewrite bind_print; repeat answered; refused;
          f_equal; same_console
        | ]).
  simpl in Hlen. lia.
Qed.

End InputFacts.

(** ** The trainer and the script as a whole *)

Section ScriptFacts.
Context {num : Type} {N : Number num} {L : Library num}.

(** What the trainer does to the world, whatever the samplers return. *)
Lemma train_dummy_model_runs (w : world) :
  let XG := random_rand (np_random w) 500 8 in
  let DG := random_dirichlet (snd XG) (repeat (of_int 1) 10) 500 in
  train_dummy_model w
  = (Returned tt,
     {| stdin := stdin w;
        stdout :=
          stdout w
            ++ [Line "Dummy atmospheric composition model trained and saved."];
        files :=
          <[model_path :=
              forest_fit 100 42 (fst XG) (scale (fst DG) (of_int 100))]>
            (files w);
        np_random := snd DG |}).
Proof.
  cbv zeta. unfold train_dummy_model, bind, draw. simpl.
  destruct (random_rand (np_random w) 500 8) as [X g1]. simpl.
  destruct (random_dirichlet g1 _ 500) as [D g2]. reflexivity.
Qed.

Lemma train_dummy_model_console (w : world) :
  fst (train_dummy_model w) = Returned tt
  /\ stdin (snd (train_dummy_model w)) = stdin w
  /\ stdout (snd (train_dummy_model w))
     = (stdout w
          ++ [Line "Dummy atmospheric composition model trained and saved."])%list.
Proof. rewrite train_dummy_model_runs. now cbv zeta. Qed.

Lemma main_after_training (w : world) :
  main w = predict_and_report (snd (train_dummy_model w)).
Proof.
  unfold main, bind.
  destruct (train_dummy_model_console w) as (Hr & _).
  destruct (train_dummy_model w) as [o w1]. simpl in *. now rewrite Hr.
Qed.

Lemma script_after_citations (w : world) :
  script w = main (wrote (map Line CITATIONS) w).
Proof. unfold script, bind. now rewrite print_citations_writes. Qed.

(** The collector touches the console only. *)
Lemma get_input_files (w : world) : files (snd (get_input w)) = files w.
Proof.
  unfold get_input, print, input, write, float_, ret, raise, wrote,
    left_to_read, bind.
  simpl.
  repeat match goal with
         | |- context [match ?l with [] => _ | _ :: _ => _ end] =>
             destruct l; simpl; [reflexivity |]
         | |- context [float_of_string ?s] =>
             destruct (float_of_string s); simpl; [| reflexivity]
         end.
  reflexivity.
Qed.

(** C6: [get_input] writes the eight prompts in their fixed order, one
    after the other, parses each answer with [float], and returns the
    values under the eight feature names in that order; at the first
    answer that [float] refuses it raises [ValueError] right after that
    prompt, asks nothing again, and the script ends with that error and
    no report. *)
Theorem get_input_contract (w : world) :
  (forall typed rest values,
      stdin w = (typed ++ rest)%list ->
      Forall2 (fun s x => float_of_string s = Some x) typed values ->
      List.length typed = 8%nat ->
      get_input w
      = (Returned (combine ESSENTIAL_FEATURES values),
         left_to_read rest
           (wrote (Line "Enter Essential Exoplanet Parameters:"
                     :: map Prompt PROMPTS) w)))
  /\ (forall good bad rest values,
         stdin w = (good ++ bad :: rest)%list ->
         Forall2 (fun s x => float_of_string s = Some x) good values ->
         (List.length good < 8)%nat ->
         float_of_string bad = None ->
         get_input w
         = (Raised ValueError,
            left_to_read rest
              (wrote (Line "Enter Essential Exoplanet Parameters:"
                        :: map Prompt (take (S (List.length good)) PROMPTS))
                     w))
         /\ exists w',
             script w = (Raised ValueError, w')
             /\ stdin w' = rest
             /\ stdout w'
                = (stdout w ++ map Line CITATIONS
                     ++ Line "Dummy atmospheric composition model trained and saved."
                     :: Line "Enter Essential Exoplanet Parameters:"
                     :: map Prompt (take (S (List.length good)) PROMPTS))%list).
Proof.
  split.
  - intros typed rest values. apply get_input_returns.
  - intros good bad rest values Hin Hv Hlen Hbad. split.
    + eapply get_input_raises; eassumption.
    + rewrite script_after_citations, main_after_training.
      set (w0 := wrote (map Line CITATIONS) w).
      destruct (train_dummy_model_console w0) as (_ & Hi & Ho).
      set (w1 := snd (train_dummy_model w0)) in *.
      unfold predict_and_report, bind.
      rewrite (get_input_raises w1 good bad rest values);
        [| rewrite Hi; exact Hin | assumption ..].
      eexists. split; [reflexivity |]. split; [reflexivity |].
      simpl. rewrite Ho. unfold w0. simpl. now rewrite <- !app_assoc.
Qed.

(** C8: when no model file is there as the prediction phase loads it,
    the phase ends with an exception in the world the input collector
    left, so nothing is predicted or reported; and once the eight values
    were collected that exception is [FileNotFoundError]. *)
Theorem missing_model_raises (w : world) :
  files w !! model_path = None ->
  exists e,
    predict_and_report w = (Raised e, snd (get_input w))
    /\ (forall user_input,
           fst (get_input w) = Returned user_input ->
           e = FileNotFoundError).
Proof.
  intros Hnone. pose proof (get_input_files w) as Hf.
  unfold predict_and_report, bind.
  destruct (get_input w) as [[user_input | e] w1]; simpl in *.
  - exists FileNotFoundError. unfold joblib_load.
    rewrite Hf, Hnone. split; [reflexivity | reflexivity].
  - exists e. split; [reflexivity | discriminate].
Qed.

End ScriptFacts.

(** ** The trainer's tables *)

Section TrainerFacts.





End TrainerFacts.

(** ** Runs on the small instance of the libraries *)



Lemma descriptor_by_percentage_alone_witness :
  exists descriptor,
    report_row "CO2" (Finite 71.43) (console [])
    = (Returned tt, wrote [Line ("CO2: 71.43%" ++ descriptor)] (console []))
    /\ report_row "NH3" (Finite 71.43) (console [])
       = (Returned tt, wrote [Line ("NH3: 71.43%" ++ descriptor)] (console []))
    /\ descriptor = " — Dominant gas".
Proof.
  destruct (descriptor_by_percentage_alone
              "CO2" "NH3" (Finite 71.43) (console []))
    as (d & H1 & H2 & H60 & _).
  exists d. split; [exact H1 | split; [exact H2 | apply H60; reflexivity]].
Defined.

Lemma get_input_contract_witness :
  get_input (@console xq _ ["1"; "2"; "3"; "4"; "5"; "6"; "7"; "8"; "9"])
  = (Returned (combine ESSENTIAL_FEATURES
                 (map (@of_int xq _) [1; 2; 3; 4; 5; 6; 7; 8]%Z)),
     left_to_read ["9"]
       (wrote (Line "Enter Essential Exoplanet Parameters:"
                 :: map Prompt PROMPTS)
              (@console xq _ ["1"; "2"; "3"; "4"; "5"; "6"; "7"; "8"; "9"])))
  /\ get_input (@console xq _ ["1"; "2"; "three"; "4"])
     = (Raised ValueError,
        left_to_read ["4"]
          (wrote (Line "Enter Essential Exoplanet Parameters:"
                    :: map Prompt (take 3 PROMPTS))
                 (@console xq _ ["1"; "2"; "three"; "4"])))
  /\ exists w',
      script (@console xq _ ["1"; "2"; "three"; "4"]) = (Raised ValueError, w')
      /\ stdin w' = ["4"].
Proof.
  split.
  - apply (proj1 (get_input_contract _)
             ["1"; "2"; "3"; "4"; "5"; "6"; "7"; "8"] ["9"]
             (map (@of_int xq _) [1; 2; 3; 4; 5; 6; 7; 8]%Z)).
    + reflexivity.
    + repeat constructor.
    + reflexivity.
  - destruct (proj2 (get_input_contract
                       (@console xq _ ["1"; "2"; "three"; "4"]))
                ["1"; "2"] "three" ["4"] (map (@of_int xq _) [1; 2]%Z))
      as (Hraised & w' & Hscript & Hleft & _).
    + reflexivity.
    + repeat constructor.
    + simpl. lia.
    + reflexivity.
    + cbn [List.length] in Hraised.
      split; [exact Hraised | exists w'; split; assumption].
Defined.

Lemma missing_model_raises_witness :
  let w := @console xq _ ["1"; "2"; "3"; "4"; "5"; "6"; "7"; "8"] in
  predict_and_report w = (Raised FileNotFoundError, snd (get_input w)).
Proof.
  intros w.
  destruct (missing_model_raises w) as (e & Hrun & He); [reflexivity |].
  rewrite Hrun. f_equal. f_equal.
  apply (He (combine ESSENTIAL_FEATURES
               (map (@of_int xq _) [1; 2; 3; 4; 5; 6; 7; 8]%Z))).
  reflexivity.
Defined.

(** C5: the four citations are top-level statements: a run writes them
    first, before the trainer's message, the prompts and the report, and
    what [generate_report] writes ends with the heading of the references,
    after which nothing follows. *)
Theorem citations_written_before_report :
  (forall (num : Type) (N : Number num) (L : Library num) (w : world),
      script w = main (wrote (map Line CITATIONS) w))
  /\ (forall (num : Type) (N : Number num) (L : Library num)
             (percentages : list num) (w : world),
         generate_report percentages w
         = (Returned tt, wrote (report percentages) w)
         /\ last (report percentages)
            = Some (Line " Referenced Research Papers:"))
  /\ (let run :=
        @script xq _ (sample_library xq)
          (console ["1"; "2"; "3"; "4"; "5"; "6"; "7"; "8"]) in
      fst run = Returned tt
      /\ stdout (snd run)
         = (map Line CITATIONS
              ++ Line "Dummy atmospheric composition model trained and saved."
              :: Line "Enter Essential Exoplanet Parameters:"
              :: map Prompt PROMPTS
              ++ Line (newline ++ "Atmospheric Composition Report")
              :: Line rule
              :: map (fun gas =>
                        Line (rjust 3 gas ++ ": 10.00% — Minor component"))
                     GASES
              ++ [Line (rule ++ newline);
                  Line " Referenced Research Papers:"])%list).
Proof.
  split; [| split].
  - intros. apply script_after_citations.
  - intros. split; [apply generate_report_writes |].
    unfold report. rewrite !last_app. reflexivity.
  - cbv zeta. split; vm_compute; reflexivity.
Qed.

(** * Further properties of the code *)

(** ** The normaliser away from positive sums *)

Section NormalizerEdges.

Lemma gt_Finite (a b : Q) : gt (Finite a) (Finite b) = true <-> b < a.
Proof.
  simpl. rewrite Qlt_alt. destruct (b ?= a); split; intros Hq; congruence.
Qed.






End NormalizerEdges.

Section ZeroSumAndBuckets.









Lemma gt_Finite_false (a b : Q) : gt (Finite a) (Finite b) = false -> a <= b.
Proof.
  intros H. apply Qnot_lt_le. intros Hlt. apply gt_Finite in Hlt. congruence.
Qed.

(** X5: a larger percentage never gets a weaker descriptor. *)
Theorem descriptor_monotone (p q : Q) :
  p <= q ->
  (descriptor_rank (descriptor_of (Finite p))
   <= descriptor_rank (descriptor_of (Finite q)))%nat.
Proof.
  intros Hpq. unfold descriptor_of.
  destruct (gt (Finite p) (of_int 60)) eqn:P60;
    destruct (gt (Finite p) (of_int 20)) eqn:P20;
    destruct (gt (Finite p) (of_int 5)) eqn:P5;
    destruct (gt (Finite q) (of_int 60)) eqn:Q60;
    destruct (gt (Finite q) (of_int 20)) eqn:Q20;
    destruct (gt (Finite q) (of_int 5)) eqn:Q5;
    try (vm_compute; lia);
    exfalso;
    repeat match goal with
           | H : gt (Finite _) (of_int _) = true |- _ =>
               apply gt_Finite in H
           | H : gt (Finite _) (of_int _) = false |- _ =>
               apply gt_Finite_false in H
           end;
    unfold inject_Z in *; lra.
Qed.

Lemma descriptor_monotone_witness :
  (descriptor_rank (descriptor_of (Finite 5.10))
   <= descriptor_rank (descriptor_of (Finite 71.43)))%nat.
Proof. apply (descriptor_monotone 5.10 71.43). unfold Qle. simpl. lia. Defined.

End ZeroSumAndBuckets.

(** ** The console at its edges *)

Section ConsoleEdges.
Context {num : Type} {N : Number num} {L : Library num}.


(** One prompt with nothing left to read. *)
Lemma ask_at_end {B} (prompt : string) (k : num -> Py B) (w : world) :
  stdin w = [] ->
  bind (input prompt) (fun t => bind (float_ t) k) w
  = (Raised EOFError, wrote [Prompt prompt] w).
Proof.
  intros Hin. unfold input, write, float_, wrote, bind. simpl.
  now rewrite Hin.
Qed.

Ltac next_answer :=
  erewrite ask_parsed; [| simpl; first [eassumption | reflexivity] | eassumption].

Ltac all_parsed :=
  repeat match goal with
         | H : Forall2 _ (_ :: _) _ |- _ => inversion H; subst; clear H
         | H : Forall2 _ [] _ |- _ => inversion H; subst; clear H
         end.

Ltac one_console :=
  repeat first [ rewrite left_to_read_wrote
               | rewrite left_to_read_twice
               | rewrite wrote_wrote ].

(** X6: when the console ends before the eighth answer, [get_input] raises
    [EOFError] right after the prompt it could not get an answer to, and
    has touched neither the files nor the generator. *)
Theorem get_input_end_of_input (w : world) (good : list string)
        (values : list num) :
  stdin w = good ->
  Forall2 (fun s x => float_of_string s = Some x) good values ->
  (List.length good < 8)%nat ->
  exists w',
    get_input w = (Raised EOFError, w')
    /\ stdin w' = []
    /\ stdout w'
       = (stdout w
            ++ Line "Enter Essential Exoplanet Parameters:"
            :: map Prompt (take (S (List.length good)) PROMPTS))%list
    /\ files w' = files w
    /\ np_random w' = np_random w.
Proof.
  intros Hin Hv Hlen.
  do 8 (destruct good as [| ? good];
        [ all_parsed; unfold get_input; rewrite bind_print;
          repeat next_answer;
          erewrite ask_at_end by (simpl; first [eassumption | reflexivity]);
          eexists; split; [reflexivity |];
          one_console;
          repeat split; first [exact Hin | reflexivity]
        | ]).
  simpl in Hlen. lia.
Qed.

(** X7: the rows are those of the [zip]: one per gas as far as there are
    percentages, never more than ten, and none at all for an empty vector;
    the two lines of the frame come before and the two others after. *)
Theorem generate_report_rows (percentages : list num) (w : world) :
  generate_report percentages w = (Returned tt, wrote (report percentages) w)
  /\ List.length (report_rows percentages)
     = Nat.min 10 (List.length percentages)
  /\ List.length (report percentages)
     = (4 + Nat.min 10 (List.length percentages))%nat
  /\ report percentages = report (take 10 percentages).
Proof.
  split; [apply generate_report_writes |].
  assert (Hrows : List.length (report_rows percentages)
                  = Nat.min 10 (List.length percentages)).
  { unfold report_rows. now rewrite length_map, length_combine. }
  split; [exact Hrows |]. split.
  - unfold report. rewrite !length_app, Hrows. simpl. lia.
  - unfold report, report_rows.
    now rewrite (combine_firstn_l GASES percentages).
Qed.

End ConsoleEdges.

(** ** The run of the script *)

Section ScriptRun.
Context {num : Type} {N : Number num} {L : Library num}.



Ltac read_count :=
  first [ exists 0%nat; split; [lia | reflexivity]
        | exists 1%nat; split; [lia | reflexivity]
        | exists 2%nat; split; [lia | reflexivity]
        | exists 3%nat; split; [lia | reflexivity]
        | exists 4%nat; split; [lia | reflexivity]
        | exists 5%nat; split; [lia | reflexivity]
        | exists 6%nat; split; [lia | reflexivity]
        | exists 7%nat; split; [lia | reflexivity]
        | exists 8%nat; split; [lia | reflexivity] ].

Lemma get_input_reads_at_most_eight (w : world) :
  exists n, (n <= 8)%nat /\ stdin (snd (get_input w)) = drop n (stdin w).
Proof.
  unfold get_input, print, input, write, float_, ret, raise, wrote,
    left_to_read, bind.
  simpl.
  repeat match goal with
         | |- context [match ?l with [] => _ | _ :: _ => _ end] =>
             destruct l; simpl; [read_count |]
         | |- context [float_of_string ?s] =>
             destruct (float_of_string s); simpl; [| read_count]
         end.
  read_count.
Qed.

Lemma get_input_generator (w : world) :
  np_random (snd (get_input w)) = np_random w.
Proof.
  unfold get_input, print, input, write, float_, ret, raise, wrote,
    left_to_read, bind.
  simpl.
  repeat match goal with
         | |- context [match ?l with [] => _ | _ :: _ => _ end] =>
             destruct l; simpl; [reflexivity |]
         | |- context [float_of_string ?s] =>
             destruct (float_of_string s); simpl; [| reflexivity]
         end.
  reflexivity.
Qed.

Lemma get_input_appends (w : world) :
  exists evs, stdout (snd (get_input w)) = (stdout w ++ evs)%list.
Proof.
  unfold get_input, print, input, write, float_, ret, raise, wrote,
    left_to_read, bind.
  simpl.
  repeat match goal with
         | |- context [match ?l with [] => _ | _ :: _ => _ end] =>
             destruct l; simpl;
             [eexists; rewrite <- ?app_assoc; reflexivity |]
         | |- context [float_of_string ?s] =>
             destruct (float_of_string s); simpl;
             [| eexists; rewrite <- ?app_assoc; reflexivity]
         end.
  eexists. rewrite <- ?app_assoc. reflexivity.
Qed.

(** X9: whatever is typed, [get_input] only works the console: it reads at
    most eight lines from the front of the input, adds to what was written
    without changing it, and leaves the files and the generator alone. *)
Theorem get_input_console_only (w : world) :
  (exists n, (n <= 8)%nat /\ stdin (snd (get_input w)) = drop n (stdin w))
  /\ (exists evs, stdout (snd (get_input w)) = (stdout w ++ evs)%list)
  /\ files (snd (get_input w)) = files w
  /\ np_random (snd (get_input w)) = np_random w.
Proof.
  split; [apply get_input_reads_at_most_eight |].
  split; [apply get_input_appends |].
  split; [apply get_input_files | apply get_input_generator].
Qed.

End ScriptRun.

(** ** Runs at the edges, on the small instance of the libraries *)

Lemma get_input_end_of_input_witness :
  exists w',
    get_input (@console xq _ ["1"; "2"; "3"]) = (Raised EOFError, w')
    /\ stdin w' = []
    /\ stdout w'
       = Line "Enter Essential Exoplanet Parameters:"
         :: map Prompt (take 4 PROMPTS).
Proof.
  destruct (get_input_end_of_input (@console xq _ ["1"; "2"; "3"])
              ["1"; "2"; "3"] (map (@of_int xq _) [1; 2; 3]%Z))
    as (w' & Hrun & Hin & Hout & _).
  - reflexivity.
  - repeat constructor.
  - simpl. lia.
  - exists w'. split; [exact Hrun | split; [exact Hin | exact Hout]].
Defined.


(** ** The sign of the raw vector *)

Section NormalizerSign.



End NormalizerSign.
